(** * NMEA-0183 sentence decoder

    A shallow embedding of the decoder in [gps.py] (the classes [BaseGPS],
    [GPSGGA], [GPSGLL], [GPSGSA], [GPSGSV], [GPSVTG], [GPSRMC]) and of the
    dispatcher [GPS.getInstance], whose text is the same in [run.py] and in
    [nmea.py] and which, in [run.py], imports its classes from [gps.py];
    then the properties of the specification, stated and settled against
    the embedding.

    Python strings are [string]; lists of fields are [list string]; a
    constructor that may raise is a computation in the monad [M], which
    records the lines written to standard output and either the exception
    raised or the value built. Indices and slice bounds in the source are
    literals that are not negative, so they are [nat].

    Not embedded: the [__str__] methods, which render the lists of fields
    with Python's [repr], and the demonstration block under [__main__],
    which prints these renderings. *)

From Stdlib Require Import String Ascii List Bool Arith Lia DecimalString.
Import ListNotations.
Open Scope string_scope.

(** ** Exceptions and the computation monad *)

(** The two exception classes of [gps.py], and the two host exceptions the
    code can let escape: [IndexError] from [frame[0]] and [self.data[i]],
    [AttributeError] from reading a class attribute that is not there. *)
Inductive exn : Type :=
| GPSFormatError (message : string)
| GPSTypeError (message : string)
| IndexError (message : string)
| AttributeError (message : string).

(** [stdout] is the list of lines printed, oldest first. *)
Definition M (A : Type) : Type := (list string * (exn + A))%type.

Definition ret {A : Type} (a : A) : M A := ([], inr a).

Definition raise {A : Type} (e : exn) : M A := ([], inl e).

Definition bind {A B : Type} (m : M A) (k : A -> M B) : M B :=
  match m with
  | (out, inl e) => (out, inl e)
  | (out, inr a) => let (out', r) := k a in ((out ++ out')%list, r)
  end.

(** Python's [print(s)]: one more line on standard output. *)
Definition print (s : string) : M unit := ([s], inr tt).

Definition stdout {A : Type} (m : M A) : list string := fst m.

Definition outcome {A : Type} (m : M A) : exn + A := snd m.

Notation "x <- m ;; k" := (bind m (fun x => k))
  (at level 61, m at next level, right associativity).
Notation "m ;;; k" := (bind m (fun _ => k))
  (at level 61, right associativity).

(** ** The Python built-ins the decoder uses *)

Module Py.

(** [c in s] for a one-character [c]. *)
Fixpoint contains (c : ascii) (s : string) : bool :=
  match s with
  | EmptyString => false
  | String a s' => (a =? c)%char || contains c s'
  end.

(** [s.rpartition(sep)] for a one-character [sep]: the part before the last
    [sep], the separator, the part after it; [('', '', s)] when [s] has no
    [sep]. *)
Fixpoint rpartition (sep : ascii) (s : string) : string * string * string :=
  match s with
  | EmptyString => ("", "", "")
  | String a s' =>
      match rpartition sep s' with
      | (h, String m ms, t) => (String a h, String m ms, t)
      | (_, EmptyString, t) =>
          if (a =? sep)%char then ("", String sep "", t)
          else ("", "", String a t)
      end
  end.

(** [re.sub('[...]', '', s)] for a character class: every character of the
    class is deleted. *)
Fixpoint re_sub_class (cls : list ascii) (s : string) : string :=
  match s with
  | EmptyString => ""
  | String a s' =>
      if existsb (Ascii.eqb a) cls then re_sub_class cls s'
      else String a (re_sub_class cls s')
  end.

(** [s.split(sep)] for a one-character [sep]: empty fields are kept, and the
    result is never the empty list. *)
Fixpoint split (sep : ascii) (s : string) : list string :=
  match s with
  | EmptyString => [""]
  | String a s' =>
      if (a =? sep)%char then "" :: split sep s'
      else match split sep s' with
           | f :: fs => String a f :: fs
           | [] => [String a ""]
           end
  end.

(** [s[i:j]] on a string, for indices that are not negative: out-of-range
    bounds are clipped. *)
Definition str_slice (s : string) (i j : nat) : string := substring i (j - i) s.

(** [l[i:j]] on a list, likewise clipped. *)
Definition slice {A : Type} (l : list A) (i j : nat) : list A :=
  firstn (j - i) (skipn i l).

(** [s[i]] on a string: [IndexError] out of range. *)
Definition str_getitem (s : string) (i : nat) : M ascii :=
  match get i s with
  | Some c => ret c
  | None => raise (IndexError "string index out of range")
  end.

(** [l[i]] on a list: [IndexError] out of range. *)
Definition getitem {A : Type} (l : list A) (i : nat) : M A :=
  match nth_error l i with
  | Some x => ret x
  | None => raise (IndexError "list index out of range")
  end.

(** [x in l] on a list of strings. *)
Definition list_in (x : string) (l : list string) : bool :=
  existsb (String.eqb x) l.

(** [list(d.keys())] of a dict literal, in insertion order. *)
Definition keys {V : Type} (d : list (string * V)) : list string := map fst d.

(** [s.count(c)] for a one-character [c]. *)
Fixpoint count (c : ascii) (s : string) : nat :=
  match s with
  | EmptyString => 0
  | String a s' => (if (a =? c)%char then 1 else 0) + count c s'
  end.

(** ["{}".format(n)] for a natural number. *)
Definition format_nat (n : nat) : string := NilZero.string_of_uint (Nat.to_uint n).

End Py.

(** ** [class BaseGPS] *)

Module BaseGPS.

Definition TYPE : string := "".

Definition ENCODING : string := "ascii".
Definition BAUD_RATE : nat := 4800.
Definition SIZE : nat := 82.
Definition START : ascii := "$"%char.
Definition END : ascii := "*"%char.
Definition SEP : ascii := ","%char.
Definition CR : string := "CR".
Definition LF : string := "LF".

Definition IDX_REC_ID_S : nat := 0.
Definition IDX_REC_ID_E : nat := 2.

Definition IDX_FRAME_TYPE_S : nat := 2.
Definition IDX_FRAME_TYPE_E : nat := 5.

Definition RECEIVERS : list (string * string) :=
  [ ("GP", "Global Positioning System");
    ("LC", "Loran-C receiver");
    ("OM", "Omega Navigation receiver");
    ("II", "Integrated Instrumentation") ].

Definition FRAME_TYPE : list (string * string) :=
  [ ("GGA", "Permanent GPS and Date");
    ("GLL", "Geographic Position Longitude-Latitude");
    ("GSA", "DOP and actif satellites");
    ("GSV", "Visible staellites");
    ("VTG", "Direction and speed (Knots and Km/h)");
    ("RMC", "Minimal and specifics data") ].

(** The attributes [__init__] sets on the instance. *)
Record t : Type := mk {
  data : list string;
  receiver : string;
  type : string
}.

(** [_split]: drop the part from the last [*] on, delete every remaining [*]
    and [$], split on commas. *)
Definition _split (frame : string) : list string :=
  let frame :=
    if Py.contains "*" frame then fst (fst (Py.rpartition "*" frame))
    else frame in
  let frame := Py.re_sub_class ["*"; "$"]%char frame in
  Py.split SEP frame.

Definition __init__ (frame : string) : M t :=
  c <- Py.str_getitem frame 0 ;;
  if negb (c =? "$")%char then
    raise (GPSFormatError ("Lenght error : " ++ Py.format_nat (String.length frame)))
  else
    let data := _split frame in
    d0 <- Py.getitem data 0 ;;
    let receiver := Py.str_slice d0 IDX_REC_ID_S IDX_REC_ID_E in
    d0' <- Py.getitem data 0 ;;
    let type := Py.str_slice d0' IDX_FRAME_TYPE_S IDX_FRAME_TYPE_E in
    ret {| data := data; receiver := receiver; type := type |}.

End BaseGPS.

(** ** The six decoders

    Each record holds the attributes of the base class, as [base], and the
    attributes the subclass constructor adds, under the names the source gives
    them. *)

Module GPSGGA.

Definition TYPE : string := "GGA".

Definition IDX_TIME : nat := 1.
Definition IDX_LAT : nat * nat := (2, 4).
Definition IDX_LONG : nat * nat := (4, 6).
Definition IDX_QUAL : nat := 6.
Definition IDX_SAT : nat := 7.
Definition IDX_ALT : nat * nat := (8, 10).

Record t : Type := mk {
  base : BaseGPS.t;
  time : string;
  lattitude : list string;
  longitude : list string;
  quality : string;
  sattelites : string;
  altitude : list string;
  checksum : string
}.

Definition __init__ (frame : string) : M t :=
  self <- BaseGPS.__init__ frame ;;
  if negb (Py.list_in (BaseGPS.type self) (Py.keys BaseGPS.FRAME_TYPE)) then
    if negb (BaseGPS.type self =? TYPE) then
      raise (GPSTypeError ("not " ++ TYPE ++ " type"))
    else
      raise (GPSFormatError (BaseGPS.type self ++ " type is not support"))
  else
    time <- Py.getitem (BaseGPS.data self) IDX_TIME ;;
    let lattitude := Py.slice (BaseGPS.data self) (fst IDX_LAT) (snd IDX_LAT) in
    let longitude := Py.slice (BaseGPS.data self) (fst IDX_LONG) (snd IDX_LONG) in
    quality <- Py.getitem (BaseGPS.data self) IDX_QUAL ;;
    sattelites <- Py.getitem (BaseGPS.data self) IDX_SAT ;;
    let altitude := Py.slice (BaseGPS.data self) (fst IDX_ALT) (snd IDX_ALT) in
    let checksum := snd (Py.rpartition "*" frame) in
    ret {| base := self; time := time; lattitude := lattitude;
           longitude := longitude; quality := quality;
           sattelites := sattelites; altitude := altitude;
           checksum := checksum |}.

End GPSGGA.

Module GPSGLL.

Definition TYPE : string := "GLL".

Definition IDX_LAT : nat * nat := (1, 3).
Definition IDX_LONG : nat * nat := (3, 5).
Definition IDX_TIME : nat := 5.
Definition IDX_DATA : nat := 6.

(** The constructor overwrites [self.data], the list of fields, with the
    field at [IDX_DATA]: on a finished instance [data] is a string. *)
Record t : Type := mk {
  receiver : string;
  type : string;
  lattitude : list string;
  longitude : list string;
  time : string;
  data : string
}.

Definition __init__ (frame : string) : M t :=
  self <- BaseGPS.__init__ frame ;;
  if negb (Py.list_in (BaseGPS.type self) (Py.keys BaseGPS.FRAME_TYPE))
     && negb (List.length (BaseGPS.data self) =? 7)%nat then
    if negb (BaseGPS.type self =? TYPE) then
      raise (GPSTypeError ("not " ++ TYPE ++ " type"))
    else
      raise (GPSFormatError (BaseGPS.type self ++ " type is not support"))
  else
    let lattitude := Py.slice (BaseGPS.data self) (fst IDX_LAT) (snd IDX_LAT) in
    let longitude := Py.slice (BaseGPS.data self) (fst IDX_LONG) (snd IDX_LONG) in
    time <- Py.getitem (BaseGPS.data self) IDX_TIME ;;
    data <- Py.getitem (BaseGPS.data self) IDX_DATA ;;
    ret {| receiver := BaseGPS.receiver self; type := BaseGPS.type self;
           lattitude := lattitude; longitude := longitude; time := time;
           data := data |}.

End GPSGLL.

Module GPSGSA.

Definition TYPE : string := "GSA".

Definition IDX_MODE : nat := 1.
Definition IDX_FIX : nat := 2.
Definition IDX_SAT_IDS : nat * nat := (3, 15).
Definition IDX_PDOP : nat := 15.
Definition IDX_HDOP : nat := 16.
Definition IDX_VDOP : nat := 17.

(** [fix] is a keyword here: the attribute [fix] is the field [fix_]. *)
Record t : Type := mk {
  base : BaseGPS.t;
  mode : string;
  fix_ : string;
  satellites : list string;
  pdop : string;
  hdop : string;
  vdop : string;
  checksum : string
}.

Definition __init__ (frame : string) : M t :=
  self <- BaseGPS.__init__ frame ;;
  if negb (Py.list_in (BaseGPS.type self) (Py.keys BaseGPS.FRAME_TYPE)) then
    if negb (BaseGPS.type self =? TYPE) then
      raise (GPSTypeError ("not " ++ TYPE ++ " type"))
    else
      raise (GPSFormatError (BaseGPS.type self ++ " type is not support"))
  else
    mode <- Py.getitem (BaseGPS.data self) IDX_MODE ;;
    fix_ <- Py.getitem (BaseGPS.data self) IDX_FIX ;;
    let satellites :=
      Py.slice (BaseGPS.data self) (fst IDX_SAT_IDS) (snd IDX_SAT_IDS) in
    pdop <- Py.getitem (BaseGPS.data self) IDX_PDOP ;;
    hdop <- Py.getitem (BaseGPS.data self) IDX_HDOP ;;
    vdop <- Py.getitem (BaseGPS.data self) IDX_VDOP ;;
    let checksum := snd (Py.rpartition "*" frame) in
    ret {| base := self; mode := mode; fix_ := fix_;
           satellites := satellites; pdop := pdop; hdop := hdop;
           vdop := vdop; checksum := checksum |}.

End GPSGSA.

Module GPSGSV.

Definition TYPE : string := "GSV".

Definition IDX_NBRS : nat := 1.
Definition IDX_CUR_NBR : nat := 2.
Definition IDX_SAT : nat := 3.
Definition IDX_FIRST_SAT_ID : nat := 4.
Definition IDX_ELEV : nat := 5.
Definition IDX_AZIM : nat := 6.
Definition IDX_SIGN : nat := 7.

(** [IDX_SIGN] is declared and never read: the instance has no attribute for
    the signal strength. *)
Record t : Type := mk {
  base : BaseGPS.t;
  total : string;
  current : string;
  satellites : string;
  first : string;
  elevation : string;
  azimuth : string;
  checksum : string
}.

Definition __init__ (frame : string) : M t :=
  self <- BaseGPS.__init__ frame ;;
  if negb (Py.list_in (BaseGPS.type self) (Py.keys BaseGPS.FRAME_TYPE)) then
    if negb (BaseGPS.type self =? TYPE) then
      raise (GPSTypeError ("not " ++ TYPE ++ " type"))
    else
      raise (GPSFormatError (BaseGPS.type self ++ " type is not support"))
  else
    total <- Py.getitem (BaseGPS.data self) IDX_NBRS ;;
    current <- Py.getitem (BaseGPS.data self) IDX_CUR_NBR ;;
    satellites <- Py.getitem (BaseGPS.data self) IDX_SAT ;;
    first <- Py.getitem (BaseGPS.data self) IDX_FIRST_SAT_ID ;;
    elevation <- Py.getitem (BaseGPS.data self) IDX_ELEV ;;
    azimuth <- Py.getitem (BaseGPS.data self) IDX_AZIM ;;
    let checksum := snd (Py.rpartition "*" frame) in
    ret {| base := self; total := total; current := current;
           satellites := satellites; first := first;
           elevation := elevation; azimuth := azimuth;
           checksum := checksum |}.

End GPSGSV.

Module GPSVTG.

Definition TYPE : string := "VTG".

Definition IDX_TRACK_DEG : nat * nat := (1, 3).
Definition IDX_TRACK_MAGN : nat * nat := (3, 5).
Definition IDX_SPEED_KNOTS : nat * nat := (5, 7).
Definition IDX_SPEED_KMH : nat * nat := (7, 9).

Record t : Type := mk {
  base : BaseGPS.t;
  dtrack : list string;
  mtrack : list string;
  nspeed : list string;
  kspeed : list string
}.

(** The guard of this constructor names [GPSGGA.TYPE], not [GPSVTG.TYPE]. *)
Definition __init__ (frame : string) : M t :=
  self <- BaseGPS.__init__ frame ;;
  if negb (Py.list_in (BaseGPS.type self) (Py.keys BaseGPS.FRAME_TYPE)) then
    if negb (BaseGPS.type self =? GPSGGA.TYPE) then
      raise (GPSTypeError ("not " ++ GPSGGA.TYPE ++ " type"))
    else
      raise (GPSFormatError (BaseGPS.type self ++ " type is not support"))
  else
    let dtrack :=
      Py.slice (BaseGPS.data self) (fst IDX_TRACK_DEG) (snd IDX_TRACK_DEG) in
    let mtrack :=
      Py.slice (BaseGPS.data self) (fst IDX_TRACK_MAGN) (snd IDX_TRACK_MAGN) in
    let nspeed :=
      Py.slice (BaseGPS.data self) (fst IDX_SPEED_KNOTS) (snd IDX_SPEED_KNOTS) in
    let kspeed :=
      Py.slice (BaseGPS.data self) (fst IDX_SPEED_KMH) (snd IDX_SPEED_KMH) in
    ret {| base := self; dtrack := dtrack; mtrack := mtrack;
           nspeed := nspeed; kspeed := kspeed |}.

End GPSVTG.

Module GPSRMC.

Definition TYPE : string := "RMC".

Definition IDX_HOUR : nat := 1.
Definition IDX_ALERT : nat := 2.
Definition IDX_LAT : nat * nat := (3, 5).
Definition IDX_LONG : nat * nat := (5, 7).
Definition IDX_SPEED_KNOTS : nat := 7.
Definition IDX_TRACK : nat := 8.
Definition IDX_DATE : nat := 9.
Definition IDX_MAGN : nat * nat := (10, 12).

Record t : Type := mk {
  base : BaseGPS.t;
  hours : string;
  alert : string;
  latitude : list string;
  longitude : list string;
  speed : string;
  track : string;
  date : string;
  magnetic : list string;
  checksum : string
}.

(** This constructor prints the sentence-type code before it checks it. *)
Definition __init__ (frame : string) : M t :=
  self <- BaseGPS.__init__ frame ;;
  print (BaseGPS.type self) ;;;
  if negb (Py.list_in (BaseGPS.type self) (Py.keys BaseGPS.FRAME_TYPE)) then
    if negb (BaseGPS.type self =? TYPE) then
      raise (GPSTypeError ("not " ++ TYPE ++ " type"))
    else
      raise (GPSFormatError (BaseGPS.type self ++ " type is not support"))
  else
    hours <- Py.getitem (BaseGPS.data self) IDX_HOUR ;;
    alert <- Py.getitem (BaseGPS.data self) IDX_ALERT ;;
    let latitude := Py.slice (BaseGPS.data self) (fst IDX_LAT) (snd IDX_LAT) in
    let longitude := Py.slice (BaseGPS.data self) (fst IDX_LONG) (snd IDX_LONG) in
    speed <- Py.getitem (BaseGPS.data self) IDX_SPEED_KNOTS ;;
    track <- Py.getitem (BaseGPS.data self) IDX_TRACK ;;
    date <- Py.getitem (BaseGPS.data self) IDX_DATE ;;
    let magnetic := Py.slice (BaseGPS.data self) (fst IDX_MAGN) (snd IDX_MAGN) in
    let checksum := snd (Py.rpartition "*" frame) in
    ret {| base := self; hours := hours; alert := alert;
           latitude := latitude; longitude := longitude; speed := speed;
           track := track; date := date; magnetic := magnetic;
           checksum := checksum |}.

End GPSRMC.

(** ** The dispatcher, [class GPS] *)

Module GPS.

(** The classes bound in the dispatcher's module when [CLASSES] is computed:
    the nine names it imports ([GPS] itself is not bound yet). *)
Inductive class : Type :=
| cls_BaseGPS
| cls_GPSFormatError
| cls_GPSGGA
| cls_GPSGLL
| cls_GPSGSA
| cls_GPSGSV
| cls_GPSRMC
| cls_GPSTypeError
| cls_GPSVTG.

(** What calling a class on the frame builds. *)
Inductive instance : Type :=
| Base (o : BaseGPS.t)
| FormatError (message : string)
| GGA (o : GPSGGA.t)
| GLL (o : GPSGLL.t)
| GSA (o : GPSGSA.t)
| GSV (o : GPSGSV.t)
| RMC (o : GPSRMC.t)
| TypeError (message : string)
| VTG (o : GPSVTG.t).

(** [inspect.getmembers(module, inspect.isclass)]: the pairs (name, class),
    sorted by name. *)
Definition CLASSES : list (string * class) :=
  [ ("BaseGPS", cls_BaseGPS);
    ("GPSFormatError", cls_GPSFormatError);
    ("GPSGGA", cls_GPSGGA);
    ("GPSGLL", cls_GPSGLL);
    ("GPSGSA", cls_GPSGSA);
    ("GPSGSV", cls_GPSGSV);
    ("GPSRMC", cls_GPSRMC);
    ("GPSTypeError", cls_GPSTypeError);
    ("GPSVTG", cls_GPSVTG) ].

(** [issubclass(c, BaseGPS)]: a class is a subclass of itself. *)
Definition issubclass_BaseGPS (c : class) : bool :=
  match c with
  | cls_GPSFormatError | cls_GPSTypeError => false
  | _ => true
  end.

(** [c.TYPE]: the exception classes have no such attribute. *)
Definition get_TYPE (c : class) : M string :=
  match c with
  | cls_BaseGPS => ret BaseGPS.TYPE
  | cls_GPSGGA => ret GPSGGA.TYPE
  | cls_GPSGLL => ret GPSGLL.TYPE
  | cls_GPSGSA => ret GPSGSA.TYPE
  | cls_GPSGSV => ret GPSGSV.TYPE
  | cls_GPSRMC => ret GPSRMC.TYPE
  | cls_GPSVTG => ret GPSVTG.TYPE
  | cls_GPSFormatError =>
      raise (AttributeError
               "type object 'GPSFormatError' has no attribute 'TYPE'")
  | cls_GPSTypeError =>
      raise (AttributeError
               "type object 'GPSTypeError' has no attribute 'TYPE'")
  end.

(** [c(frame)]. *)
Definition call (c : class) (frame : string) : M instance :=
  match c with
  | cls_BaseGPS => o <- BaseGPS.__init__ frame ;; ret (Base o)
  | cls_GPSFormatError => ret (FormatError frame)
  | cls_GPSGGA => o <- GPSGGA.__init__ frame ;; ret (GGA o)
  | cls_GPSGLL => o <- GPSGLL.__init__ frame ;; ret (GLL o)
  | cls_GPSGSA => o <- GPSGSA.__init__ frame ;; ret (GSA o)
  | cls_GPSGSV => o <- GPSGSV.__init__ frame ;; ret (GSV o)
  | cls_GPSRMC => o <- GPSRMC.__init__ frame ;; ret (RMC o)
  | cls_GPSTypeError => ret (TypeError frame)
  | cls_GPSVTG => o <- GPSVTG.__init__ frame ;; ret (VTG o)
  end.

(** The [for] loop of [getInstance] over the classes still to visit; falling
    off its end returns [None]. *)
Fixpoint getInstance_loop (classes : list (string * class))
    (base : BaseGPS.t) (frame : string) : M (option instance) :=
  match classes with
  | [] => ret None
  | clss :: rest =>
      if issubclass_BaseGPS (snd clss) then
        TYPE <- get_TYPE (snd clss) ;;
        if BaseGPS.type base =? TYPE then
          o <- call (snd clss) frame ;; ret (Some o)
        else getInstance_loop rest base frame
      else getInstance_loop rest base frame
  end.

(** [frame] is a [string], so the [isinstance(frame, str)] test passes. *)
Definition getInstance (frame : string) : M (option instance) :=
  base <- BaseGPS.__init__ frame ;;
  getInstance_loop CLASSES base frame.

End GPS.

(** ** Laws of the monad and of the built-ins *)

Lemma bind_ret_l {A B : Type} (a : A) (k : A -> M B) : bind (ret a) k = k a.
Proof. unfold bind, ret. destruct (k a) as [out r]. reflexivity. Qed.

Lemma bind_raise_l {A B : Type} (e : exn) (k : A -> M B) :
  bind (raise e) k = raise e.
Proof. reflexivity. Qed.

Lemma outcome_bind_inr {A B : Type} (m : M A) (k : A -> M B) (a : A) :
  outcome m = inr a -> outcome (bind m k) = outcome (k a).
Proof.
  destruct m as [out [e | a']]; simpl; intros H; [discriminate|].
  injection H as ->. destruct (k a) as [out' r]. reflexivity.
Qed.

Lemma outcome_bind_inl {A B : Type} (m : M A) (k : A -> M B) (e : exn) :
  outcome m = inl e -> outcome (bind m k) = inl e.
Proof.
  destruct m as [out [e' | a]]; simpl; intros H; [|discriminate].
  now injection H as ->.
Qed.

Lemma split_cons (sep : ascii) (s : string) :
  exists f fs, Py.split sep s = f :: fs.
Proof.
  induction s as [|a s [f [fs IH]]]; simpl.
  - now exists "", [].
  - destruct (a =? sep)%char.
    + now exists "", (Py.split sep s).
    + rewrite IH. now exists (String a f), fs.
Qed.

Lemma contains_app (c : ascii) (s1 s2 : string) :
  Py.contains c (s1 ++ s2) = Py.contains c s1 || Py.contains c s2.
Proof.
  induction s1 as [|a s1 IH]; simpl; [reflexivity|].
  now rewrite IH, orb_assoc.
Qed.

Lemma rpartition_absent (sep : ascii) (s : string) :
  Py.contains sep s = false -> Py.rpartition sep s = ("", "", s).
Proof.
  induction s as [|a s IH]; simpl; [reflexivity|].
  intros H. apply orb_false_elim in H as [Ha Hs].
  now rewrite (IH Hs), Ha.
Qed.

Lemma rpartition_last (sep : ascii) (h t : string) :
  Py.contains sep t = false ->
  Py.rpartition sep (h ++ String sep t) = (h, String sep "", t).
Proof.
  intros Ht. induction h as [|a h IH]; simpl.
  - now rewrite (rpartition_absent _ _ Ht), Ascii.eqb_refl.
  - now rewrite IH.
Qed.

Lemma str_slice_header (s : string) :
  exists rest,
    s = Py.str_slice s 0 2 ++ Py.str_slice s 2 5 ++ rest /\
    String.length (Py.str_slice s 0 2) = Nat.min 2 (String.length s) /\
    String.length (Py.str_slice s 2 5) = Nat.min 3 (String.length s - 2).
Proof.
  unfold Py.str_slice.
  destruct s as [|a [|b [|c [|d [|e s]]]]]; simpl.
  1-5: exists ""; repeat split; reflexivity.
  exists s; repeat split; destruct s; reflexivity.
Qed.

Lemma slice_length {A : Type} (l : list A) (i j : nat) :
  length (Py.slice l i j) = Nat.min (j - i) (length l - i).
Proof. unfold Py.slice. now rewrite length_firstn, length_skipn. Qed.

(** ** What the base constructor does, by the first character *)

Lemma BaseGPS_init_empty :
  BaseGPS.__init__ "" = raise (IndexError "string index out of range").
Proof. reflexivity. Qed.

Lemma BaseGPS_init_not_dollar (c : ascii) (rest : string) :
  c <> "$"%char ->
  BaseGPS.__init__ (String c rest) =
  raise (GPSFormatError
           ("Lenght error : " ++ Py.format_nat (String.length (String c rest)))).
Proof.
  intros Hc. apply Ascii.eqb_neq in Hc.
  unfold BaseGPS.__init__, Py.str_getitem. cbn [get].
  rewrite bind_ret_l, Hc. reflexivity.
Qed.

Lemma BaseGPS_init_dollar (rest : string) :
  let frame := String "$" rest in
  BaseGPS.__init__ frame =
  ret {| BaseGPS.data := BaseGPS._split frame;
         BaseGPS.receiver := Py.str_slice (hd "" (BaseGPS._split frame)) 0 2;
         BaseGPS.type := Py.str_slice (hd "" (BaseGPS._split frame)) 2 5 |}.
Proof.
  intros frame. unfold BaseGPS.__init__, Py.str_getitem. subst frame.
  cbn [get]. rewrite bind_ret_l. cbn [Ascii.eqb Bool.eqb negb].
  set (frame := String "$" rest).
  unfold BaseGPS._split at 1 2.
  destruct (split_cons BaseGPS.SEP
              (Py.re_sub_class ["*"%char; "$"%char]
                 (if Py.contains "*" frame
                  then fst (fst (Py.rpartition "*" frame)) else frame)))
    as [f [fs Hsp]].
  unfold BaseGPS._split. rewrite Hsp.
  unfold Py.getitem. cbn [nth_error hd]. now rewrite !bind_ret_l.
Qed.

Lemma BaseGPS_init_inv (frame : string) (self : BaseGPS.t) :
  outcome (BaseGPS.__init__ frame) = inr self ->
  exists rest, frame = String "$" rest /\ BaseGPS.__init__ frame = ret self.
Proof.
  destruct frame as [|c rest].
  - discriminate.
  - destruct (Ascii.eqb_spec c "$") as [-> | Hc].
    + intros H. exists rest. split; [reflexivity|].
      rewrite BaseGPS_init_dollar in *. cbn in H. now injection H as <-.
    + rewrite (BaseGPS_init_not_dollar _ _ Hc). discriminate.
Qed.

(** ** Tactics for running a decoder *)

(** After the base constructor has returned [self], a decoder is its own
    body run on [self]. *)
Ltac enter_decoder Hbase :=
  match goal with
  | |- context [GPSGGA.__init__ _] => unfold GPSGGA.__init__
  | |- context [GPSGLL.__init__ _] => unfold GPSGLL.__init__
  | |- context [GPSGSA.__init__ _] => unfold GPSGSA.__init__
  | |- context [GPSGSV.__init__ _] => unfold GPSGSV.__init__
  | |- context [GPSVTG.__init__ _] => unfold GPSVTG.__init__
  | |- context [GPSRMC.__init__ _] => unfold GPSRMC.__init__
  end;
  rewrite Hbase, bind_ret_l.

Ltac unfold_positions :=
  cbv beta delta
    [GPSGGA.IDX_TIME GPSGGA.IDX_LAT GPSGGA.IDX_LONG GPSGGA.IDX_QUAL
     GPSGGA.IDX_SAT GPSGGA.IDX_ALT
     GPSGLL.IDX_LAT GPSGLL.IDX_LONG GPSGLL.IDX_TIME GPSGLL.IDX_DATA
     GPSGSA.IDX_MODE GPSGSA.IDX_FIX GPSGSA.IDX_SAT_IDS GPSGSA.IDX_PDOP
     GPSGSA.IDX_HDOP GPSGSA.IDX_VDOP
     GPSGSV.IDX_NBRS GPSGSV.IDX_CUR_NBR GPSGSV.IDX_SAT
     GPSGSV.IDX_FIRST_SAT_ID GPSGSV.IDX_ELEV GPSGSV.IDX_AZIM
     GPSVTG.IDX_TRACK_DEG GPSVTG.IDX_TRACK_MAGN GPSVTG.IDX_SPEED_KNOTS
     GPSVTG.IDX_SPEED_KMH
     GPSRMC.IDX_HOUR GPSRMC.IDX_ALERT GPSRMC.IDX_LAT GPSRMC.IDX_LONG
     GPSRMC.IDX_SPEED_KNOTS GPSRMC.IDX_TRACK GPSRMC.IDX_DATE
     GPSRMC.IDX_MAGN].

(** Every [self.data[i]] of the goal is looked at: found or out of range. *)
Ltac case_getitems :=
  unfold Py.getitem;
  repeat match goal with
         | |- context [nth_error ?l ?i] =>
             let E := fresh "E" in destruct (nth_error l i) eqn:E
         end.

(** The list [l] is too short for position [k]: some [self.data[i]] of the
    goal raises the index error. *)
Ltac too_short l k :=
  let Hk := fresh "Hk" in
  assert (Hk : nth_error l k = None) by (apply nth_error_None; lia);
  case_getitems; try congruence; reflexivity.

(** The list [l] reaches position [k]: every [self.data[i]] of the goal, all
    at positions up to [k], returns. *)
Ltac long_enough :=
  case_getitems;
  try match goal with
      | E : nth_error _ _ = None |- _ => apply nth_error_None in E; lia
      end;
  eexists; split; [reflexivity|];
  cbn [GPSGGA.altitude GPSGLL.lattitude GPSGLL.longitude GPSGSA.satellites
       GPSGSV.base GPSVTG.dtrack GPSVTG.mtrack GPSVTG.nspeed GPSVTG.kspeed
       GPSRMC.magnetic fst snd];
  rewrite ?slice_length; repeat split; try reflexivity; lia.

(** ** The guard of the decoders on the sentence-type code *)

Lemma unknown_code_eqb (ty : string) :
  Py.list_in ty (Py.keys BaseGPS.FRAME_TYPE) = false ->
  (ty =? "GGA") = false /\ (ty =? "GLL") = false /\ (ty =? "GSA") = false /\
  (ty =? "GSV") = false /\ (ty =? "VTG") = false /\ (ty =? "RMC") = false.
Proof.
  unfold Py.list_in, Py.keys, BaseGPS.FRAME_TYPE. cbn [map fst existsb].
  intros H.
  repeat (apply orb_false_elim in H as [? H]).
  repeat split; assumption.
Qed.

(** X14. On a code outside [FRAME_TYPE] the guard of five decoders fires,
    and what it raises is the type error: the inner test compares the code
    with one of the known tags, so it holds, and the format error below it is
    never reached. The message of the VTG decoder names GGA. *)
Lemma unknown_code_raises_TypeError (frame : string) (self : BaseGPS.t) :
  outcome (BaseGPS.__init__ frame) = inr self ->
  Py.list_in (BaseGPS.type self) (Py.keys BaseGPS.FRAME_TYPE) = false ->
  outcome (GPSGGA.__init__ frame) = inl (GPSTypeError "not GGA type") /\
  outcome (GPSGSA.__init__ frame) = inl (GPSTypeError "not GSA type") /\
  outcome (GPSGSV.__init__ frame) = inl (GPSTypeError "not GSV type") /\
  outcome (GPSVTG.__init__ frame) = inl (GPSTypeError "not GGA type") /\
  outcome (GPSRMC.__init__ frame) = inl (GPSTypeError "not RMC type").
Proof.
  intros Hb Hty. destruct (BaseGPS_init_inv _ _ Hb) as [rest [_ Hinit]].
  destruct (unknown_code_eqb _ Hty) as (Hgga & _ & Hgsa & Hgsv & _ & Hrmc).
  repeat split; enter_decoder Hinit.
  - rewrite Hty. unfold GPSGGA.TYPE. now rewrite Hgga.
  - rewrite Hty. unfold GPSGSA.TYPE. now rewrite Hgsa.
  - rewrite Hty. unfold GPSGSV.TYPE. now rewrite Hgsv.
  - rewrite Hty. unfold GPSGGA.TYPE. now rewrite Hgga.
  - unfold print, bind at 1. rewrite Hty. unfold GPSRMC.TYPE.
    now rewrite Hrmc.
Qed.

(** X15. No decoder ever raises the format error of its guard: once the
    base constructor has returned, a format error is not among the
    outcomes. *)
Lemma guard_never_FormatError (frame : string) (self : BaseGPS.t) (m : string) :
  outcome (BaseGPS.__init__ frame) = inr self ->
  outcome (GPSGGA.__init__ frame) <> inl (GPSFormatError m) /\
  outcome (GPSGLL.__init__ frame) <> inl (GPSFormatError m) /\
  outcome (GPSGSA.__init__ frame) <> inl (GPSFormatError m) /\
  outcome (GPSGSV.__init__ frame) <> inl (GPSFormatError m) /\
  outcome (GPSVTG.__init__ frame) <> inl (GPSFormatError m) /\
  outcome (GPSRMC.__init__ frame) <> inl (GPSFormatError m).
Proof.
  intros Hb. destruct (BaseGPS_init_inv _ _ Hb) as [rest [_ Hinit]].
  repeat split; enter_decoder Hinit;
    try (unfold print, bind at 1);
    (destruct (Py.list_in (BaseGPS.type self) (Py.keys BaseGPS.FRAME_TYPE))
       eqn:Hty;
     [ cbn [negb andb]; case_getitems; cbn; discriminate
     | destruct (unknown_code_eqb _ Hty)
         as (Hgga & Hgll & Hgsa & Hgsv & _ & Hrmc);
       cbn [negb andb];
       unfold GPSGGA.TYPE, GPSGLL.TYPE, GPSGSA.TYPE, GPSGSV.TYPE, GPSRMC.TYPE;
       rewrite ?Hgga, ?Hgll, ?Hgsa, ?Hgsv, ?Hrmc ]).
  all: try (cbn; discriminate).
  (* GLL: the guard also asks that there are not seven fields *)
  destruct (negb (length (BaseGPS.data self) =? 7)%nat); cbn [negb];
    [cbn; discriminate|].
  case_getitems; cbn; discriminate.
Qed.

(** On a code of [FRAME_TYPE] the guard of no decoder fires, whatever the
    tag of the decoder: the type error is not among the outcomes. *)
Lemma known_code_never_TypeError (frame : string) (self : BaseGPS.t)
    (m : string) :
  outcome (BaseGPS.__init__ frame) = inr self ->
  Py.list_in (BaseGPS.type self) (Py.keys BaseGPS.FRAME_TYPE) = true ->
  outcome (GPSGGA.__init__ frame) <> inl (GPSTypeError m) /\
  outcome (GPSGLL.__init__ frame) <> inl (GPSTypeError m) /\
  outcome (GPSGSA.__init__ frame) <> inl (GPSTypeError m) /\
  outcome (GPSGSV.__init__ frame) <> inl (GPSTypeError m) /\
  outcome (GPSVTG.__init__ frame) <> inl (GPSTypeError m) /\
  outcome (GPSRMC.__init__ frame) <> inl (GPSTypeError m).
Proof.
  intros Hb Hty. destruct (BaseGPS_init_inv _ _ Hb) as [rest [_ Hinit]].
  repeat split; enter_decoder Hinit; try (unfold print, bind at 1);
    rewrite Hty; cbn [negb andb]; case_getitems; cbn; discriminate.
Qed.

(** C1 (the code departs from it). The claim: a decoder given a sentence of
    another known type fails with the type error, and given a sentence of an
    unknown type fails with the format error. The guard is nested the other
    way round: on the unknown code XYZ the GGA and VTG decoders raise the
    type error; on an RMC sentence the GGA decoder raises nothing and builds a
    record from the RMC fields; on a GLL sentence it runs into the index
    error of the host. *)
Theorem decoder_guard_at_mismatched_codes :
  outcome (GPSGGA.__init__ "$GPXYZ,1") = inl (GPSTypeError "not GGA type") /\
  outcome (GPSVTG.__init__ "$GPXYZ,1") = inl (GPSTypeError "not GGA type") /\
  (exists o,
     outcome (GPSGGA.__init__
       "$GPRMC,225446,A,4916.45,N,12311.12,W,000.5,054.7,191194,020.3,E*68")
     = inr o /\
     BaseGPS.type (GPSGGA.base o) = "RMC" /\
     GPSGGA.time o = "225446" /\ GPSGGA.quality o = "W") /\
  outcome (GPSGGA.__init__ "$GPGLL,4807.038,N,01131.324,E,123519,1")
  = inl (IndexError "list index out of range").
Proof.
  split; [reflexivity|]. split; [reflexivity|]. split; [|reflexivity].
  eexists. split; [reflexivity|]. repeat split.
Qed.

(** ** The dispatcher *)

(** The loop over [CLASSES] when the code of the frame is none of the seven
    [TYPE] attributes it meets: it falls off the end. *)
Lemma getInstance_loop_no_match (base : BaseGPS.t) (frame : string) :
  BaseGPS.type base <> "" ->
  Py.list_in (BaseGPS.type base) (Py.keys BaseGPS.FRAME_TYPE) = false ->
  GPS.getInstance_loop GPS.CLASSES base frame = ret None.
Proof.
  intros Hne Hty.
  destruct (unknown_code_eqb _ Hty) as (Hgga & Hgll & Hgsa & Hgsv & Hvtg & Hrmc).
  apply String.eqb_neq in Hne.
  unfold GPS.CLASSES.
  cbn [GPS.getInstance_loop snd GPS.issubclass_BaseGPS GPS.get_TYPE].
  rewrite !bind_ret_l.
  unfold BaseGPS.TYPE, GPSGGA.TYPE, GPSGLL.TYPE, GPSGSA.TYPE, GPSGSV.TYPE,
    GPSRMC.TYPE, GPSVTG.TYPE.
  now rewrite Hne, Hgga, Hgll, Hgsa, Hgsv, Hvtg, Hrmc.
Qed.

(** C2, as stated, fails at the frame [$GP,1]: it starts with the dollar
    sign, its code is the empty string, which is none of the six tags, and
    the dispatcher returns an instance of the base class, not [None]. *)
Lemma getInstance_unregistered_counterexample :
  exists self,
    outcome (BaseGPS.__init__ "$GP,1") = inr self /\
    Py.list_in (BaseGPS.type self) (Py.keys BaseGPS.FRAME_TYPE) = false /\
    outcome (GPS.getInstance "$GP,1") <> inr None.
Proof.
  eexists. split; [reflexivity|]. split; [reflexivity|]. discriminate.
Qed.

(** C2 (amended). For every frame that starts with the dollar sign the base
    constructor returns, and when the sentence-type code it extracts is not
    empty and is none of the six registered tags the dispatcher prints
    nothing, raises nothing and returns [None]. *)
Theorem getInstance_unregistered_None (rest : string) :
  let frame := String "$" rest in
  exists self,
    outcome (BaseGPS.__init__ frame) = inr self /\
    (BaseGPS.type self <> "" ->
     Py.list_in (BaseGPS.type self) (Py.keys BaseGPS.FRAME_TYPE) = false ->
     GPS.getInstance frame = ([], inr None)).
Proof.
  intros frame. eexists. split.
  - subst frame. rewrite BaseGPS_init_dollar. reflexivity.
  - intros Hne Hty. unfold GPS.getInstance. subst frame.
    rewrite BaseGPS_init_dollar, bind_ret_l.
    now apply getInstance_loop_no_match.
Qed.

Lemma getInstance_unregistered_None_witness :
  exists self,
    outcome (BaseGPS.__init__ "$GPXYZ,1") = inr self /\
    BaseGPS.type self = "XYZ" /\
    GPS.getInstance "$GPXYZ,1" = ([], inr None).
Proof.
  destruct (getInstance_unregistered_None "GPXYZ,1") as [self [Hb Hnone]].
  exists self. split; [exact Hb|].
  cbn in Hb. injection Hb as <-. split; [reflexivity|].
  apply Hnone; [discriminate | reflexivity].
Defined.

(** C3. The dispatcher on the GGA example sentence. *)
Theorem getInstance_GGA_example :
  exists o,
    GPS.getInstance
      "$GPGGA,123519,4807.038,N,01131.324,E,1,08,545.4,M,46.9,M,,*42"
    = ([], inr (Some (GPS.GGA o))) /\
    GPSGGA.time o = "123519" /\
    GPSGGA.lattitude o = ["4807.038"; "N"] /\
    GPSGGA.longitude o = ["01131.324"; "E"] /\
    GPSGGA.quality o = "1" /\
    GPSGGA.sattelites o = "08" /\
    GPSGGA.altitude o = ["545.4"; "M"] /\
    GPSGGA.checksum o = "42".
Proof.
  eexists. split; [vm_compute; reflexivity|]. repeat split.
Qed.

(** ** The splitter *)

Lemma split_without_star (body : string) :
  Py.contains "*" body = false ->
  BaseGPS._split body =
  Py.split BaseGPS.SEP (Py.re_sub_class ["*"; "$"]%char body).
Proof. intros H. unfold BaseGPS._split. now rewrite H. Qed.

Lemma split_drops_checksum (body checksum : string) :
  Py.contains "*" body = false ->
  Py.contains "*" checksum = false ->
  BaseGPS._split (body ++ "*" ++ checksum) = BaseGPS._split body.
Proof.
  intros Hb Hc.
  rewrite (split_without_star body Hb).
  unfold BaseGPS._split.
  rewrite contains_app. cbn [append Py.contains]. rewrite Ascii.eqb_refl.
  rewrite orb_true_r.
  now rewrite (rpartition_last "*" body checksum Hc).
Qed.

(** C4. Splitting does not see the checksum: for a body without a star and
    a checksum without a star, the body followed by the star and the checksum
    splits as the body alone, and when the body starts with the dollar sign
    the base constructor builds the same instance from both; the two example
    sentences split into GPGGA, 1, 2. *)
Theorem split_checksum_agnostic :
  (forall body checksum : string,
     Py.contains "*" body = false ->
     Py.contains "*" checksum = false ->
     BaseGPS._split (body ++ "*" ++ checksum) = BaseGPS._split body /\
     (forall rest, body = String "$" rest ->
        BaseGPS.__init__ (body ++ "*" ++ checksum) = BaseGPS.__init__ body)) /\
  BaseGPS._split "$GPGGA,1,2*42" = ["GPGGA"; "1"; "2"] /\
  BaseGPS._split "$GPGGA,1,2" = ["GPGGA"; "1"; "2"].
Proof.
  split; [|split; reflexivity].
  intros body checksum Hb Hc.
  pose proof (split_drops_checksum body checksum Hb Hc) as Hsplit.
  split; [exact Hsplit|].
  intros rest ->. cbn [append] in *.
  rewrite !BaseGPS_init_dollar. cbv zeta. now rewrite Hsplit.
Qed.

Lemma split_checksum_agnostic_witness :
  BaseGPS._split ("$GPGGA,1,2" ++ "*" ++ "42") = BaseGPS._split "$GPGGA,1,2" /\
  BaseGPS.__init__ ("$GPGGA,1,2" ++ "*" ++ "42") = BaseGPS.__init__ "$GPGGA,1,2".
Proof.
  destruct (proj1 split_checksum_agnostic "$GPGGA,1,2" "42" eq_refl eq_refl)
    as [Hsplit Hinit].
  split; [exact Hsplit | exact (Hinit "GPGGA,1,2" eq_refl)].
Defined.

(** ** Header extraction *)

(** C5, as stated, fails at the frame [$GP,1]: its first field, GP, has two
    characters, and the base constructor raises no format error; it returns
    the receiver GP and the empty sentence-type code. *)
Lemma header_short_field_counterexample :
  hd "" (BaseGPS._split "$GP,1") = "GP" /\
  String.length "GP" < 5 /\
  outcome (BaseGPS.__init__ "$GP,1")
  = inr {| BaseGPS.data := ["GP"; "1"];
           BaseGPS.receiver := "GP";
           BaseGPS.type := "" |} /\
  (forall m, outcome (BaseGPS.__init__ "$GP,1") <> inl (GPSFormatError m)).
Proof.
  split; [reflexivity|]. split; [cbn; lia|]. split; [reflexivity|].
  intros m. discriminate.
Qed.

(** C5 (amended). For every frame that starts with the dollar sign the base
    constructor returns; the receiver is the characters [0,2) and the
    sentence-type code the characters [2,5) of the first field, each clipped
    to the length of that field: the first field is the receiver, then the
    code, then what is left, the receiver has two characters or the whole
    field when it is shorter, the code has three characters or those the
    field has after its second. *)
Theorem header_slices_first_field (rest : string) :
  let frame := String "$" rest in
  exists self f0 fs tail,
    BaseGPS.__init__ frame = ([], inr self) /\
    BaseGPS.data self = BaseGPS._split frame /\
    BaseGPS.data self = f0 :: fs /\
    f0 = BaseGPS.receiver self ++ BaseGPS.type self ++ tail /\
    String.length (BaseGPS.receiver self) = Nat.min 2 (String.length f0) /\
    String.length (BaseGPS.type self) = Nat.min 3 (String.length f0 - 2).
Proof.
  cbv zeta.
  destruct (split_cons BaseGPS.SEP
              (Py.re_sub_class ["*"%char; "$"%char]
                 (if Py.contains "*" (String "$" rest)
                  then fst (fst (Py.rpartition "*" (String "$" rest)))
                  else String "$" rest)))
    as [f0 [fs Hsp]].
  fold (BaseGPS._split (String "$" rest)) in Hsp.
  destruct (str_slice_header f0) as [tail (Hcat & Hrec & Hty)].
  eexists _, f0, fs, tail. split.
  - rewrite BaseGPS_init_dollar. reflexivity.
  - cbn [BaseGPS.data BaseGPS.receiver BaseGPS.type].
    rewrite Hsp. cbn [hd]. repeat split; assumption.
Qed.

(** ** Sentences with too few fields *)

(** C6, as stated, fails at the frame [$GPGGA,1]: the code is that of the
    GGA decoder, there are two fields where the decoder reads up to position
    9, and the decoder raises the index error of the host, not a format
    error. *)
Lemma truncated_sentence_counterexample :
  (exists self,
     outcome (BaseGPS.__init__ "$GPGGA,1") = inr self /\
     BaseGPS.type self = GPSGGA.TYPE /\
     length (BaseGPS.data self) = 2) /\
  outcome (GPSGGA.__init__ "$GPGGA,1")
  = inl (IndexError "list index out of range") /\
  (forall m, outcome (GPSGGA.__init__ "$GPGGA,1") <> inl (GPSFormatError m)).
Proof.
  split; [eexists; split; [reflexivity|]; split; reflexivity|].
  split; [reflexivity|]. intros m. discriminate.
Qed.

(** C6 (amended). For a sentence the base constructor accepts, with [n]
    fields and the code of the decoder invoked: the decoder raises the index
    error of the host when [n] does not reach its highest singly indexed
    position (7 for GGA, 6 for GLL, 17 for GSA, 6 for GSV, 9 for RMC), and
    returns a record when [n] does, its ranges clipped to the fields that
    are there; the VTG decoder, which reads ranges only, returns a record
    for every [n]. *)
Theorem truncated_sentence_outcome (frame : string) (self : BaseGPS.t) :
  outcome (BaseGPS.__init__ frame) = inr self ->
  let n := length (BaseGPS.data self) in
  let index_error := IndexError "list index out of range" in
  (BaseGPS.type self = GPSGGA.TYPE ->
   (n <= 7 -> outcome (GPSGGA.__init__ frame) = inl index_error) /\
   (7 < n ->
    exists o, outcome (GPSGGA.__init__ frame) = inr o /\
      length (GPSGGA.altitude o) = Nat.min 2 (n - 8))) /\
  (BaseGPS.type self = GPSGLL.TYPE ->
   (n <= 6 -> outcome (GPSGLL.__init__ frame) = inl index_error) /\
   (6 < n -> exists o, outcome (GPSGLL.__init__ frame) = inr o /\
      length (GPSGLL.lattitude o) = 2 /\ length (GPSGLL.longitude o) = 2)) /\
  (BaseGPS.type self = GPSGSA.TYPE ->
   (n <= 17 -> outcome (GPSGSA.__init__ frame) = inl index_error) /\
   (17 < n -> exists o, outcome (GPSGSA.__init__ frame) = inr o /\
      length (GPSGSA.satellites o) = 12)) /\
  (BaseGPS.type self = GPSGSV.TYPE ->
   (n <= 6 -> outcome (GPSGSV.__init__ frame) = inl index_error) /\
   (6 < n -> exists o, outcome (GPSGSV.__init__ frame) = inr o /\
      GPSGSV.base o = self)) /\
  (BaseGPS.type self = GPSVTG.TYPE ->
   exists o, outcome (GPSVTG.__init__ frame) = inr o /\
     length (GPSVTG.dtrack o) = Nat.min 2 (n - 1) /\
     length (GPSVTG.mtrack o) = Nat.min 2 (n - 3) /\
     length (GPSVTG.nspeed o) = Nat.min 2 (n - 5) /\
     length (GPSVTG.kspeed o) = Nat.min 2 (n - 7)) /\
  (BaseGPS.type self = GPSRMC.TYPE ->
   (n <= 9 -> outcome (GPSRMC.__init__ frame) = inl index_error) /\
   (9 < n ->
    exists o, outcome (GPSRMC.__init__ frame) = inr o /\
      length (GPSRMC.magnetic o) = Nat.min 2 (n - 10))).
Proof.
  intros Hb n index_error. subst n index_error.
  destruct (BaseGPS_init_inv _ _ Hb) as [rest [_ Hinit]].
  split; [|split; [|split; [|split; [|split]]]]; intros Hty;
    [ split; intros Hn | split; intros Hn | split; intros Hn
    | split; intros Hn | | split; intros Hn ].
  all: enter_decoder Hinit; try (unfold print, bind at 1); rewrite Hty;
    cbn [negb andb Py.list_in Py.keys BaseGPS.FRAME_TYPE map fst existsb
         String.eqb Ascii.eqb Bool.eqb orb
         GPSGGA.TYPE GPSGLL.TYPE GPSGSA.TYPE GPSGSV.TYPE GPSVTG.TYPE
         GPSRMC.TYPE];
    unfold_positions.
  - too_short (BaseGPS.data self) 7.
  - long_enough.
  - too_short (BaseGPS.data self) 6.
  - long_enough.
  - too_short (BaseGPS.data self) 17.
  - long_enough.
  - too_short (BaseGPS.data self) 6.
  - long_enough.
  - long_enough.
  - too_short (BaseGPS.data self) 9.
  - long_enough.
Qed.

Lemma truncated_sentence_outcome_witness :
  outcome (GPSGGA.__init__ "$GPGGA,1")
  = inl (IndexError "list index out of range") /\
  (exists o,
     outcome (GPSVTG.__init__ "$GPVTG,054.7,T,034.4") = inr o /\
     length (GPSVTG.mtrack o) = 1 /\ length (GPSVTG.kspeed o) = 0).
Proof.
  split.
  - refine (proj1 (proj1 (truncated_sentence_outcome "$GPGGA,1"
              {| BaseGPS.data := ["GPGGA"; "1"];
                 BaseGPS.receiver := "GP";
                 BaseGPS.type := "GGA" |} _) _) _).
    + reflexivity.
    + reflexivity.
    + cbn. lia.
  - destruct (proj1 (proj2 (proj2 (proj2 (proj2
              (truncated_sentence_outcome "$GPVTG,054.7,T,034.4"
                 {| BaseGPS.data := ["GPVTG"; "054.7"; "T"; "034.4"];
                    BaseGPS.receiver := "GP";
                    BaseGPS.type := "VTG" |} eq_refl))))) eq_refl)
      as [o (Ho & _ & Hm & _ & Hk)].
    exists o. split; [exact Ho|]. split; [exact Hm | exact Hk].
Defined.

(** ** Frames that do not start with the dollar sign *)

(** X16. A frame with a first character other than the dollar sign is
    refused by the base constructor with the format error, whose message
    gives the length of the frame, and so by every decoder and by the
    dispatcher. *)
Lemma not_dollar_FormatError (c : ascii) (rest : string) :
  c <> "$"%char ->
  let frame := String c rest in
  let e := GPSFormatError
             ("Lenght error : " ++ Py.format_nat (String.length frame)) in
  outcome (BaseGPS.__init__ frame) = inl e /\
  outcome (GPSGGA.__init__ frame) = inl e /\
  outcome (GPSGLL.__init__ frame) = inl e /\
  outcome (GPSGSA.__init__ frame) = inl e /\
  outcome (GPSGSV.__init__ frame) = inl e /\
  outcome (GPSVTG.__init__ frame) = inl e /\
  outcome (GPSRMC.__init__ frame) = inl e /\
  outcome (GPS.getInstance frame) = inl e.
Proof.
  intros Hc frame e. subst frame e.
  pose proof (BaseGPS_init_not_dollar c rest Hc) as Hinit.
  unfold GPSGGA.__init__, GPSGLL.__init__, GPSGSA.__init__, GPSGSV.__init__,
    GPSVTG.__init__, GPSRMC.__init__, GPS.getInstance.
  rewrite Hinit, !bind_raise_l. repeat split.
Qed.

(** C7 (the code departs from it). The claim: every string that does not
    begin with the dollar sign is refused with the format error. The empty
    string does not begin with the dollar sign, and on it the test on
    [frame[0]] raises the index error of the host before the format error
    can be raised: in the base constructor, in each decoder and in the
    dispatcher. *)
Theorem empty_frame_IndexError :
  let e := IndexError "string index out of range" in
  outcome (BaseGPS.__init__ "") = inl e /\
  outcome (GPSGGA.__init__ "") = inl e /\
  outcome (GPSGLL.__init__ "") = inl e /\
  outcome (GPSGSA.__init__ "") = inl e /\
  outcome (GPSGSV.__init__ "") = inl e /\
  outcome (GPSVTG.__init__ "") = inl e /\
  outcome (GPSRMC.__init__ "") = inl e /\
  outcome (GPS.getInstance "") = inl e.
Proof. cbv zeta. repeat split. Qed.

(** ** The checksum attribute *)

(** C8. When the frame has no star, a record returned by the GGA, GSA, GSV
    or RMC decoder has the whole frame as its checksum. *)
Theorem checksum_without_star_is_frame (frame : string) :
  Py.contains "*" frame = false ->
  (forall o, outcome (GPSGGA.__init__ frame) = inr o ->
             GPSGGA.checksum o = frame) /\
  (forall o, outcome (GPSGSA.__init__ frame) = inr o ->
             GPSGSA.checksum o = frame) /\
  (forall o, outcome (GPSGSV.__init__ frame) = inr o ->
             GPSGSV.checksum o = frame) /\
  (forall o, outcome (GPSRMC.__init__ frame) = inr o ->
             GPSRMC.checksum o = frame).
Proof.
  intros Hstar.
  pose proof (rpartition_absent "*" frame Hstar) as Hpart.
  split; [|split; [|split]]; intros o;
    unfold GPSGGA.__init__, GPSGSA.__init__, GPSGSV.__init__, GPSRMC.__init__;
    (destruct (BaseGPS.__init__ frame) as [out [e | self]];
     [discriminate|]);
    unfold print, bind at 1; try unfold bind at 1;
    (destruct (negb (Py.list_in (BaseGPS.type self)
                       (Py.keys BaseGPS.FRAME_TYPE)));
     [ match goal with
       | |- context [negb (?a =? ?b)] => destruct (negb (a =? b))
       end; discriminate
     | ]);
    case_getitems; cbn; try discriminate;
    intros H; injection H as <-; cbn; now rewrite Hpart.
Qed.

Lemma checksum_without_star_is_frame_witness :
  let frame := "$GPGSA,A,3,04,05,,09,12,,,24,,,,,2.5,1.3,2.1" in
  (exists o, outcome (GPSGGA.__init__ frame) = inr o /\
             GPSGGA.checksum o = frame) /\
  (exists o, outcome (GPSGSA.__init__ frame) = inr o /\
             GPSGSA.checksum o = frame) /\
  (exists o, outcome (GPSGSV.__init__ frame) = inr o /\
             GPSGSV.checksum o = frame) /\
  (exists o, outcome (GPSRMC.__init__ frame) = inr o /\
             GPSRMC.checksum o = frame).
Proof.
  intros frame.
  destruct (checksum_without_star_is_frame frame eq_refl)
    as (Hgga & Hgsa & Hgsv & Hrmc).
  split; [|split; [|split]]; eexists; (split; [reflexivity|]).
  - now apply Hgga.
  - now apply Hgsa.
  - now apply Hgsv.
  - now apply Hrmc.
Defined.

(** ** The base class in the registry *)

Lemma str_slice_short (s : string) :
  String.length s <= 2 ->
  Py.str_slice s 0 2 = s /\ Py.str_slice s 2 5 = "".
Proof.
  unfold Py.str_slice.
  destruct s as [|a [|b [|c s]]]; cbn; intros H; try lia; split; reflexivity.
Qed.

(** C9. For a frame that starts with the dollar sign and whose first field
    has at most two characters, the dispatcher returns an instance of the base
    class: its receiver is that field, its sentence-type code is empty, and
    nothing is printed or raised. *)
Theorem getInstance_short_first_field (rest : string) :
  let frame := String "$" rest in
  String.length (hd "" (BaseGPS._split frame)) <= 2 ->
  GPS.getInstance frame =
  ([], inr (Some (GPS.Base
                    {| BaseGPS.data := BaseGPS._split frame;
                       BaseGPS.receiver := hd "" (BaseGPS._split frame);
                       BaseGPS.type := "" |}))).
Proof.
  cbv zeta. intros Hlen.
  destruct (str_slice_short _ Hlen) as [Hrec Hty].
  unfold GPS.getInstance. rewrite BaseGPS_init_dollar, bind_ret_l.
  rewrite Hrec, Hty.
  unfold GPS.CLASSES.
  cbn [GPS.getInstance_loop snd GPS.issubclass_BaseGPS GPS.get_TYPE].
  rewrite bind_ret_l.
  cbn [BaseGPS.type BaseGPS.TYPE String.eqb GPS.call].
  rewrite BaseGPS_init_dollar, !bind_ret_l, Hrec, Hty. reflexivity.
Qed.

Lemma getInstance_short_first_field_witness :
  GPS.getInstance "$GP,1" =
  ([], inr (Some (GPS.Base
                    {| BaseGPS.data := ["GP"; "1"];
                       BaseGPS.receiver := "GP";
                       BaseGPS.type := "" |}))).
Proof.
  apply (getInstance_short_first_field "GP,1"). cbn. lia.
Defined.

(** ** The GLL decoder on seven fields *)

Lemma length_seven {A : Type} (l : list A) :
  length l = 7 ->
  exists a0 a1 a2 a3 a4 a5 a6, l = [a0; a1; a2; a3; a4; a5; a6].
Proof.
  destruct l as [|a0 [|a1 [|a2 [|a3 [|a4 [|a5 [|a6 [|a7 l]]]]]]]];
    cbn; intros H; try discriminate.
  now exists a0, a1, a2, a3, a4, a5, a6.
Qed.

(** C10. For a sentence the base constructor accepts, whose code is none
    of the six known tags and which splits into exactly seven fields, the GLL
    decoder prints nothing, raises nothing and returns the record read off the
    GLL positions: fields 1 and 2, fields 3 and 4, field 5, field 6. *)
Theorem GLL_unknown_code_seven_fields (frame : string) (self : BaseGPS.t) :
  outcome (BaseGPS.__init__ frame) = inr self ->
  Py.list_in (BaseGPS.type self) (Py.keys BaseGPS.FRAME_TYPE) = false ->
  length (BaseGPS.data self) = 7 ->
  exists f0 f1 f2 f3 f4 f5 f6,
    BaseGPS.data self = [f0; f1; f2; f3; f4; f5; f6] /\
    GPSGLL.__init__ frame =
    ([], inr {| GPSGLL.receiver := BaseGPS.receiver self;
                GPSGLL.type := BaseGPS.type self;
                GPSGLL.lattitude := [f1; f2];
                GPSGLL.longitude := [f3; f4];
                GPSGLL.time := f5;
                GPSGLL.data := f6 |}).
Proof.
  intros Hb Hty Hlen.
  destruct (BaseGPS_init_inv _ _ Hb) as [rest [_ Hinit]].
  destruct (length_seven _ Hlen) as (f0 & f1 & f2 & f3 & f4 & f5 & f6 & Hdata).
  exists f0, f1, f2, f3, f4, f5, f6. split; [exact Hdata|].
  enter_decoder Hinit. rewrite Hty, Hlen, Hdata. reflexivity.
Qed.

Lemma GLL_unknown_code_seven_fields_witness :
  GPSGLL.__init__ "$GPXYZ,4807.038,N,01131.324,E,123519,1" =
  ([], inr {| GPSGLL.receiver := "GP";
              GPSGLL.type := "XYZ";
              GPSGLL.lattitude := ["4807.038"; "N"];
              GPSGLL.longitude := ["01131.324"; "E"];
              GPSGLL.time := "123519";
              GPSGLL.data := "1" |}).
Proof.
  destruct (GLL_unknown_code_seven_fields
              "$GPXYZ,4807.038,N,01131.324,E,123519,1"
              {| BaseGPS.data :=
                   ["GPXYZ"; "4807.038"; "N"; "01131.324"; "E"; "123519"; "1"];
                 BaseGPS.receiver := "GP";
                 BaseGPS.type := "XYZ" |}
              eq_refl eq_refl eq_refl)
    as (f0 & f1 & f2 & f3 & f4 & f5 & f6 & Hdata & Hgll).
  cbn [BaseGPS.data BaseGPS.receiver BaseGPS.type] in Hdata, Hgll.
  injection Hdata as <- <- <- <- <- <- <-. exact Hgll.
Defined.

(** ** More on the splitter: what the fields are made of *)

Lemma re_sub_class_removes (cls : list ascii) (c : ascii) (s : string) :
  existsb (Ascii.eqb c) cls = true ->
  Py.contains c (Py.re_sub_class cls s) = false.
Proof.
  intros Hc. induction s as [|a s IH]; cbn; [reflexivity|].
  destruct (existsb (Ascii.eqb a) cls) eqn:Ha; [exact IH|].
  cbn. rewrite IH, orb_false_r.
  destruct (Ascii.eqb_spec a c) as [-> | _]; [congruence | reflexivity].
Qed.

Lemma re_sub_class_absent (cls : list ascii) (s : string) :
  (forall c, In c cls -> Py.contains c s = false) ->
  Py.re_sub_class cls s = s.
Proof.
  induction s as [|a s IH]; cbn; intros H; [reflexivity|].
  destruct (existsb (Ascii.eqb a) cls) eqn:Ha.
  - apply existsb_exists in Ha as [c [Hin Hac]].
    apply Ascii.eqb_eq in Hac as <-.
    specialize (H a Hin). cbn in H. now rewrite Ascii.eqb_refl in H.
  - f_equal. apply IH. intros c Hin. specialize (H c Hin). cbn in H.
    now apply orb_false_elim in H.
Qed.

Lemma split_fields_without (sep c : ascii) (s : string) :
  Py.contains c s = false ->
  Forall (fun f => Py.contains c f = false) (Py.split sep s).
Proof.
  induction s as [|a s IH]; cbn; intros H.
  - now repeat constructor.
  - apply orb_false_elim in H as [Ha Hs]. specialize (IH Hs).
    destruct (a =? sep)%char.
    + now constructor.
    + destruct (Py.split sep s) as [|f fs].
      * constructor; [cbn; now rewrite Ha | constructor].
      * inversion IH as [|? ? Hf Hfs]; subst.
        constructor; [cbn; now rewrite Ha, Hf | exact Hfs].
Qed.

Lemma split_fields_without_sep (sep : ascii) (s : string) :
  Forall (fun f => Py.contains sep f = false) (Py.split sep s).
Proof.
  induction s as [|a s IH]; cbn.
  - now repeat constructor.
  - destruct (a =? sep)%char eqn:Ha.
    + now constructor.
    + destruct (Py.split sep s) as [|f fs].
      * constructor; [cbn; now rewrite Ha | constructor].
      * inversion IH as [|? ? Hf Hfs]; subst.
        constructor; [cbn; now rewrite Ha, Hf | exact Hfs].
Qed.

(** X1. No field the splitter returns holds a comma, a dollar sign or a
    star, whatever the frame. *)
Theorem split_fields_clean (frame : string) :
  Forall (fun f => Py.contains "," f = false /\
                   Py.contains "$" f = false /\
                   Py.contains "*" f = false)
         (BaseGPS._split frame).
Proof.
  unfold BaseGPS._split.
  set (kept := if Py.contains "*" frame
               then fst (fst (Py.rpartition "*" frame)) else frame).
  set (body := Py.re_sub_class ["*"; "$"]%char kept).
  pose proof (split_fields_without_sep BaseGPS.SEP body) as Hc.
  pose proof (split_fields_without BaseGPS.SEP "$" body
                (re_sub_class_removes ["*"; "$"]%char "$" kept eq_refl)) as Hd.
  pose proof (split_fields_without BaseGPS.SEP "*" body
                (re_sub_class_removes ["*"; "$"]%char "*" kept eq_refl)) as Hs.
  rewrite Forall_forall in *. intros f Hf.
  repeat split; [apply Hc | apply Hd | apply Hs]; exact Hf.
Qed.

Lemma split_length (sep : ascii) (s : string) :
  length (Py.split sep s) = S (Py.count sep s).
Proof.
  induction s as [|a s IH]; cbn; [reflexivity|].
  destruct (a =? sep)%char; cbn; [now rewrite IH|].
  destruct (Py.split sep s) as [|f fs]; cbn in *; [discriminate | exact IH].
Qed.

Lemma count_re_sub_class (cls : list ascii) (c : ascii) (s : string) :
  existsb (Ascii.eqb c) cls = false ->
  Py.count c (Py.re_sub_class cls s) = Py.count c s.
Proof.
  intros Hc. induction s as [|a s IH]; cbn; [reflexivity|].
  destruct (existsb (Ascii.eqb a) cls) eqn:Ha; cbn; rewrite IH.
  - destruct (Ascii.eqb_spec a c) as [-> | _]; [congruence | reflexivity].
  - reflexivity.
Qed.

Lemma split_before_last_star (head tail : string) :
  Py.contains "*" tail = false ->
  BaseGPS._split (head ++ "*" ++ tail) =
  Py.split BaseGPS.SEP (Py.re_sub_class ["*"; "$"]%char head).
Proof.
  intros Ht. unfold BaseGPS._split.
  rewrite contains_app. cbn [append Py.contains]. rewrite Ascii.eqb_refl.
  rewrite orb_true_r.
  now rewrite (rpartition_last "*" head tail Ht).
Qed.

(** X2. The splitter returns one field more than there are commas in the
    part of the frame it keeps: the whole frame when it has no star, the
    part before the last star otherwise. *)
Theorem split_field_count :
  (forall frame, Py.contains "*" frame = false ->
     length (BaseGPS._split frame) = S (Py.count "," frame)) /\
  (forall head tail, Py.contains "*" tail = false ->
     length (BaseGPS._split (head ++ "*" ++ tail)) = S (Py.count "," head)).
Proof.
  split.
  - intros frame H. rewrite (split_without_star frame H), split_length.
    now rewrite count_re_sub_class.
  - intros head tail H. rewrite (split_before_last_star head tail H).
    rewrite split_length. now rewrite count_re_sub_class.
Qed.

Lemma split_field_count_witness :
  length (BaseGPS._split "$GPGLL,4807.038,N,01131.324,E,123519,1") = 7 /\
  length (BaseGPS._split ("$GPGSV,2,1,08,01,40,083,46" ++ "*" ++ "75")) = 8.
Proof.
  split.
  - exact (proj1 split_field_count
             "$GPGLL,4807.038,N,01131.324,E,123519,1" eq_refl).
  - exact (proj2 split_field_count "$GPGSV,2,1,08,01,40,083,46" "75" eq_refl).
Defined.

Lemma re_sub_class_after_star (s : string) :
  Py.re_sub_class ["*"; "$"]%char (Py.re_sub_class ["*"]%char s) =
  Py.re_sub_class ["*"; "$"]%char s.
Proof.
  induction s as [|a s IH]; [reflexivity|].
  cbn [Py.re_sub_class existsb].
  destruct (Ascii.eqb_spec a "*") as [-> | Hstar]; cbn [orb]; [exact IH|].
  cbn [Py.re_sub_class existsb].
  apply Ascii.eqb_neq in Hstar. rewrite Hstar. cbn [orb].
  destruct (a =? "$")%char; [exact IH | now rewrite IH].
Qed.

(** X3. Only the text after the last star is dropped: for a tail without
    a star, the frame made of a head, a star and the tail splits as the head
    with its own stars deleted, the text between two stars kept and run
    together. *)
Theorem split_keeps_text_between_stars (head tail : string) :
  Py.contains "*" tail = false ->
  BaseGPS._split (head ++ "*" ++ tail) =
  BaseGPS._split (Py.re_sub_class ["*"]%char head).
Proof.
  intros Ht. rewrite (split_before_last_star head tail Ht).
  rewrite split_without_star
    by (apply (re_sub_class_removes ["*"%char] "*"); reflexivity).
  now rewrite re_sub_class_after_star.
Qed.

Lemma split_keeps_text_between_stars_witness :
  BaseGPS._split ("$GPGGA,1*4,2" ++ "*" ++ "42") = BaseGPS._split "$GPGGA,14,2".
Proof.
  exact (split_keeps_text_between_stars "$GPGGA,1*4,2" "42" eq_refl).
Defined.

(** ** Splitting and joining *)

Lemma concat_split (sep : ascii) (s : string) :
  String.concat (String sep "") (Py.split sep s) = s.
Proof.
  induction s as [|a s IH]; cbn [Py.split]; [reflexivity|].
  destruct (Ascii.eqb_spec a sep) as [-> | Hne].
  - destruct (split_cons sep s) as [f [fs Hsp]]. rewrite Hsp in *.
    now rewrite <- IH.
  - destruct (split_cons sep s) as [f [fs Hsp]]. rewrite Hsp in *.
    rewrite <- IH. now destruct fs.
Qed.

Lemma split_one_field (sep : ascii) (f : string) :
  Py.contains sep f = false -> Py.split sep f = [f].
Proof.
  induction f as [|a f IH]; cbn; intros H; [reflexivity|].
  apply orb_false_elim in H as [Ha Hf]. now rewrite Ha, (IH Hf).
Qed.

Lemma split_field_then_sep (sep : ascii) (f rest : string) :
  Py.contains sep f = false ->
  Py.split sep (f ++ String sep rest) = f :: Py.split sep rest.
Proof.
  induction f as [|a f IH]; cbn; intros H.
  - now rewrite Ascii.eqb_refl.
  - apply orb_false_elim in H as [Ha Hf]. now rewrite Ha, (IH Hf).
Qed.

Lemma split_concat (sep : ascii) (l : list string) :
  l <> [] ->
  Forall (fun f => Py.contains sep f = false) l ->
  Py.split sep (String.concat (String sep "") l) = l.
Proof.
  induction l as [|x l IH]; intros Hne Hall; [congruence|].
  inversion Hall as [|? ? Hx Hl]; subst.
  destruct l as [|y l].
  - cbn. now apply split_one_field.
  - cbn [String.concat append].
    rewrite (split_field_then_sep sep x _ Hx). f_equal.
    apply IH; [discriminate | exact Hl].
Qed.

Lemma contains_concat (c sep : ascii) (l : list string) :
  (c =? sep)%char = false ->
  Forall (fun f => Py.contains c f = false) l ->
  Py.contains c (String.concat (String sep "") l) = false.
Proof.
  intros Hsep. induction l as [|x l IH]; intros Hall; [reflexivity|].
  inversion Hall as [|? ? Hx Hl]; subst.
  destruct l as [|y l]; [exact Hx|].
  cbn [String.concat]. rewrite contains_app, Hx. cbn [append Py.contains orb].
  rewrite Ascii.eqb_sym, Hsep. exact (IH Hl).
Qed.

Lemma split_dollar_body (body : string) :
  Py.contains "$" body = false ->
  Py.contains "*" body = false ->
  Py.split BaseGPS.SEP (Py.re_sub_class ["*"; "$"]%char (String "$" body)) =
  Py.split BaseGPS.SEP body.
Proof.
  intros Hd Hs. cbn [Py.re_sub_class existsb Ascii.eqb Bool.eqb orb].
  rewrite re_sub_class_absent; [reflexivity|].
  intros c [<- | [<- | []]]; assumption.
Qed.

(** X4. Splitting then joining: for a body without a dollar sign or a
    star, the fields of the frame made of the dollar sign and the body,
    joined with commas, are the body again; the same holds when a star and a
    checksum without a star follow the body. *)
Theorem join_split_body (body checksum : string) :
  Py.contains "$" body = false ->
  Py.contains "*" body = false ->
  Py.contains "*" checksum = false ->
  String.concat "," (BaseGPS._split ("$" ++ body)) = body /\
  String.concat "," (BaseGPS._split ("$" ++ body ++ "*" ++ checksum)) = body.
Proof.
  intros Hd Hs Hc. cbn [append]. split.
  - rewrite split_without_star by (cbn; exact Hs).
    rewrite (split_dollar_body body Hd Hs). apply concat_split.
  - change (String "$" (body ++ String "*" checksum))
      with (String "$" body ++ "*" ++ checksum).
    rewrite (split_before_last_star _ _ Hc).
    rewrite (split_dollar_body body Hd Hs). apply concat_split.
Qed.

Lemma join_split_body_witness :
  String.concat "," (BaseGPS._split ("$" ++ "GPGSV,2,1,08,,40")) =
  "GPGSV,2,1,08,,40" /\
  String.concat "," (BaseGPS._split ("$" ++ "GPGSV,2,1,08,,40" ++ "*" ++ "75")) =
  "GPGSV,2,1,08,,40".
Proof.
  exact (join_split_body "GPGSV,2,1,08,,40" "75" eq_refl eq_refl eq_refl).
Defined.

(** X5. Joining then splitting: for a list of fields that is not empty and
    whose fields hold no comma, dollar sign or star, the frame made of the
    dollar sign and the fields joined with commas splits into these fields
    again, with or without a star and a checksum after them; empty fields
    are kept. *)
Theorem split_join_fields (fields : list string) (checksum : string) :
  fields <> [] ->
  Forall (fun f => Py.contains "," f = false /\
                   Py.contains "$" f = false /\
                   Py.contains "*" f = false) fields ->
  Py.contains "*" checksum = false ->
  BaseGPS._split ("$" ++ String.concat "," fields) = fields /\
  BaseGPS._split ("$" ++ String.concat "," fields ++ "*" ++ checksum) = fields.
Proof.
  intros Hne Hall Hc.
  assert (Hcomma : Forall (fun f => Py.contains "," f = false) fields)
    by (eapply Forall_impl; [|exact Hall]; cbn; tauto).
  assert (Hd : Py.contains "$" (String.concat "," fields) = false).
  { apply contains_concat; [reflexivity|].
    eapply Forall_impl; [|exact Hall]; cbn; tauto. }
  assert (Hs : Py.contains "*" (String.concat "," fields) = false).
  { apply contains_concat; [reflexivity|].
    eapply Forall_impl; [|exact Hall]; cbn; tauto. }
  cbn [append]. split.
  - rewrite split_without_star by (cbn; exact Hs).
    rewrite (split_dollar_body _ Hd Hs). now apply split_concat.
  - change (String "$" (String.concat "," fields ++ String "*" checksum))
      with (String "$" (String.concat "," fields) ++ "*" ++ checksum).
    rewrite (split_before_last_star _ _ Hc).
    rewrite (split_dollar_body _ Hd Hs). now apply split_concat.
Qed.

Lemma split_join_fields_witness :
  BaseGPS._split ("$" ++ String.concat "," ["GPGGA"; ""; "N"]) =
  ["GPGGA"; ""; "N"] /\
  BaseGPS._split ("$" ++ String.concat "," ["GPGGA"; ""; "N"] ++ "*" ++ "42") =
  ["GPGGA"; ""; "N"].
Proof.
  apply (split_join_fields ["GPGGA"; ""; "N"] "42").
  - discriminate.
  - repeat constructor.
  - reflexivity.
Defined.

(** ** More on the base constructor and the dispatcher *)

(** X6. The base constructor returns an instance exactly on the frames
    that start with the dollar sign, and then it prints nothing: the lookup
    of the first field cannot fail, the splitter always returning at least
    one field. *)
Theorem BaseGPS_accepts_iff_dollar (frame : string) :
  (exists self, BaseGPS.__init__ frame = ([], inr self)) <->
  (exists rest, frame = String "$" rest).
Proof.
  split.
  - intros [self H].
    destruct (BaseGPS_init_inv frame self) as [rest [Hrest _]].
    + now rewrite H.
    + now exists rest.
  - intros [rest ->]. eexists. rewrite BaseGPS_init_dollar. reflexivity.
Qed.

Lemma BaseGPS_init_data (frame : string) (self : BaseGPS.t) :
  outcome (BaseGPS.__init__ frame) = inr self ->
  BaseGPS.data self = BaseGPS._split frame.
Proof.
  intros Hb. destruct (BaseGPS_init_inv _ _ Hb) as [rest [-> Hinit]].
  rewrite BaseGPS_init_dollar in Hinit. cbv zeta in Hinit.
  injection Hinit as <-. reflexivity.
Qed.

Lemma outcome_bind_map {A B : Type} (m : M A) (f : A -> B) :
  outcome (bind m (fun a => ret (f a))) =
  match outcome m with
  | inl e => inl e
  | inr a => inr (f a)
  end.
Proof. destruct m as [out [e | a]]; reflexivity. Qed.

Lemma bind_map_map {A B C : Type} (m : M A) (f : A -> B) (g : B -> C) :
  bind (bind m (fun a => ret (f a))) (fun b => ret (g b)) =
  bind m (fun a => ret (g (f a))).
Proof.
  destruct m as [out [e | a]]; cbn; [reflexivity|].
  now rewrite !app_nil_r.
Qed.

(** The loop over [CLASSES], class by class: the first class whose [TYPE] is
    the code of [base] is called on the frame. *)
Lemma getInstance_loop_cases (base : BaseGPS.t) (frame : string) :
  GPS.getInstance_loop GPS.CLASSES base frame =
  if BaseGPS.type base =? "" then
    o <- BaseGPS.__init__ frame ;; ret (Some (GPS.Base o))
  else if BaseGPS.type base =? "GGA" then
    o <- GPSGGA.__init__ frame ;; ret (Some (GPS.GGA o))
  else if BaseGPS.type base =? "GLL" then
    o <- GPSGLL.__init__ frame ;; ret (Some (GPS.GLL o))
  else if BaseGPS.type base =? "GSA" then
    o <- GPSGSA.__init__ frame ;; ret (Some (GPS.GSA o))
  else if BaseGPS.type base =? "GSV" then
    o <- GPSGSV.__init__ frame ;; ret (Some (GPS.GSV o))
  else if BaseGPS.type base =? "RMC" then
    o <- GPSRMC.__init__ frame ;; ret (Some (GPS.RMC o))
  else if BaseGPS.type base =? "VTG" then
    o <- GPSVTG.__init__ frame ;; ret (Some (GPS.VTG o))
  else ret None.
Proof.
  unfold GPS.CLASSES.
  cbn [GPS.getInstance_loop snd GPS.issubclass_BaseGPS GPS.get_TYPE GPS.call].
  rewrite !bind_ret_l, !bind_map_map. reflexivity.
Qed.

(** X7. On a frame whose code is one of the six tags the dispatcher does
    what the decoder of that tag does on the frame: the same lines printed,
    the same exception raised, or the record the decoder returns. *)
Theorem getInstance_runs_decoder_of_code (frame : string) (self : BaseGPS.t) :
  outcome (BaseGPS.__init__ frame) = inr self ->
  (BaseGPS.type self = GPSGGA.TYPE ->
   GPS.getInstance frame =
   (o <- GPSGGA.__init__ frame ;; ret (Some (GPS.GGA o)))) /\
  (BaseGPS.type self = GPSGLL.TYPE ->
   GPS.getInstance frame =
   (o <- GPSGLL.__init__ frame ;; ret (Some (GPS.GLL o)))) /\
  (BaseGPS.type self = GPSGSA.TYPE ->
   GPS.getInstance frame =
   (o <- GPSGSA.__init__ frame ;; ret (Some (GPS.GSA o)))) /\
  (BaseGPS.type self = GPSGSV.TYPE ->
   GPS.getInstance frame =
   (o <- GPSGSV.__init__ frame ;; ret (Some (GPS.GSV o)))) /\
  (BaseGPS.type self = GPSVTG.TYPE ->
   GPS.getInstance frame =
   (o <- GPSVTG.__init__ frame ;; ret (Some (GPS.VTG o)))) /\
  (BaseGPS.type self = GPSRMC.TYPE ->
   GPS.getInstance frame =
   (o <- GPSRMC.__init__ frame ;; ret (Some (GPS.RMC o)))).
Proof.
  intros Hb. destruct (BaseGPS_init_inv _ _ Hb) as [rest [_ Hinit]].
  unfold GPS.getInstance. rewrite Hinit at 1 2 3 4 5 6.
  rewrite !bind_ret_l, getInstance_loop_cases.
  repeat split; intros ->; reflexivity.
Qed.

Lemma getInstance_runs_decoder_of_code_witness :
  GPS.getInstance "$GPRMC,225446,A" =
  (["RMC"], inl (IndexError "list index out of range")) /\
  GPS.getInstance "$GPVTG,054.7,T,034.4,M,005.5,N,010.3,K" =
  (o <- GPSVTG.__init__ "$GPVTG,054.7,T,034.4,M,005.5,N,010.3,K" ;;
   ret (Some (GPS.VTG o))).
Proof.
  split.
  - rewrite (proj2 (proj2 (proj2 (proj2 (proj2
       (getInstance_runs_decoder_of_code "$GPRMC,225446,A"
          {| BaseGPS.data := ["GPRMC"; "225446"; "A"];
             BaseGPS.receiver := "GP";
             BaseGPS.type := "RMC" |} eq_refl))))) eq_refl).
    reflexivity.
  - exact (proj1 (proj2 (proj2 (proj2 (proj2
       (getInstance_runs_decoder_of_code
          "$GPVTG,054.7,T,034.4,M,005.5,N,010.3,K"
          {| BaseGPS.data :=
               ["GPVTG"; "054.7"; "T"; "034.4"; "M"; "005.5"; "N"; "010.3";
                "K"];
             BaseGPS.receiver := "GP";
             BaseGPS.type := "VTG" |} eq_refl))))) eq_refl).
Defined.

(** ** What the decoders can raise and print *)

(** On a known code the decoders raise nothing but the index error; the
    form used below for the dispatcher. *)
Lemma known_code_errors (frame : string) (self : BaseGPS.t) :
  outcome (BaseGPS.__init__ frame) = inr self ->
  Py.list_in (BaseGPS.type self) (Py.keys BaseGPS.FRAME_TYPE) = true ->
  let index_error := IndexError "list index out of range" in
  (forall e, outcome (GPSGGA.__init__ frame) = inl e -> e = index_error) /\
  (forall e, outcome (GPSGLL.__init__ frame) = inl e -> e = index_error) /\
  (forall e, outcome (GPSGSA.__init__ frame) = inl e -> e = index_error) /\
  (forall e, outcome (GPSGSV.__init__ frame) = inl e -> e = index_error) /\
  (forall e, outcome (GPSVTG.__init__ frame) = inl e -> e = index_error) /\
  (forall e, outcome (GPSRMC.__init__ frame) = inl e -> e = index_error).
Proof.
  intros Hb Hty index_error. subst index_error.
  destruct (BaseGPS_init_inv _ _ Hb) as [rest [_ Hinit]].
  repeat split; intros e; enter_decoder Hinit;
    try (unfold print, bind at 1);
    rewrite Hty; cbn [negb andb]; case_getitems; cbn; congruence.
Qed.

(** X8. Once the base constructor has accepted the frame and its code is
    one of the six tags, the only exception a decoder raises, whatever its
    own tag, is the index error of a list too short. *)
Theorem known_code_only_IndexError (frame : string) (self : BaseGPS.t) :
  outcome (BaseGPS.__init__ frame) = inr self ->
  Py.list_in (BaseGPS.type self) (Py.keys BaseGPS.FRAME_TYPE) = true ->
  let index_error := IndexError "list index out of range" in
  (forall e, outcome (GPSGGA.__init__ frame) = inl e -> e = index_error) /\
  (forall e, outcome (GPSGLL.__init__ frame) = inl e -> e = index_error) /\
  (forall e, outcome (GPSGSA.__init__ frame) = inl e -> e = index_error) /\
  (forall e, outcome (GPSGSV.__init__ frame) = inl e -> e = index_error) /\
  (forall e, outcome (GPSVTG.__init__ frame) = inl e -> e = index_error) /\
  (forall e, outcome (GPSRMC.__init__ frame) = inl e -> e = index_error).
Proof.
  intros Hb Hty index_error. subst index_error.
  destruct (BaseGPS_init_inv _ _ Hb) as [rest [_ Hinit]].
  repeat split; intros e; enter_decoder Hinit;
    try (unfold print, bind at 1);
    rewrite Hty; cbn [negb andb]; case_getitems; cbn; congruence.
Qed.

Lemma known_code_only_IndexError_witness :
  outcome (GPSGSA.__init__ "$GPGLL,4807.038,N,01131.324,E,123519,1")
  = inl (IndexError "list index out of range").
Proof.
  destruct (outcome (GPSGSA.__init__ "$GPGLL,4807.038,N,01131.324,E,123519,1"))
    as [e | o] eqn:He; [|discriminate He].
  f_equal.
  exact (proj1 (proj2 (proj2
           (known_code_only_IndexError
              "$GPGLL,4807.038,N,01131.324,E,123519,1"
              {| BaseGPS.data :=
                   ["GPGLL"; "4807.038"; "N"; "01131.324"; "E"; "123519"; "1"];
                 BaseGPS.receiver := "GP";
                 BaseGPS.type := "GLL" |} eq_refl eq_refl))) e He).
Defined.

(** X9. With a code that is none of the six tags and a number of fields
    other than seven, the GLL decoder raises the type error. *)
Theorem GLL_unknown_code_other_field_count (frame : string) (self : BaseGPS.t) :
  outcome (BaseGPS.__init__ frame) = inr self ->
  Py.list_in (BaseGPS.type self) (Py.keys BaseGPS.FRAME_TYPE) = false ->
  length (BaseGPS.data self) <> 7 ->
  GPSGLL.__init__ frame = ([], inl (GPSTypeError "not GLL type")).
Proof.
  intros Hb Hty Hlen. destruct (BaseGPS_init_inv _ _ Hb) as [rest [_ Hinit]].
  destruct (unknown_code_eqb _ Hty) as (_ & Hgll & _).
  apply Nat.eqb_neq in Hlen.
  enter_decoder Hinit. rewrite Hty, Hlen. unfold GPSGLL.TYPE.
  now rewrite Hgll.
Qed.

Lemma GLL_unknown_code_other_field_count_witness :
  GPSGLL.__init__ "$GPXYZ,4807.038,N" = ([], inl (GPSTypeError "not GLL type")).
Proof.
  apply (GLL_unknown_code_other_field_count "$GPXYZ,4807.038,N"
           {| BaseGPS.data := ["GPXYZ"; "4807.038"; "N"];
              BaseGPS.receiver := "GP";
              BaseGPS.type := "XYZ" |}).
  - reflexivity.
  - reflexivity.
  - cbn. lia.
Defined.

(** X10. Once the base constructor has accepted the frame and its code is
    one of the six tags, the VTG decoder returns a record for any number of
    fields, prints nothing, and the record carries the header of the base
    constructor. *)
Theorem VTG_returns_on_known_code (frame : string) (self : BaseGPS.t) :
  outcome (BaseGPS.__init__ frame) = inr self ->
  Py.list_in (BaseGPS.type self) (Py.keys BaseGPS.FRAME_TYPE) = true ->
  exists o, GPSVTG.__init__ frame = ([], inr o) /\ GPSVTG.base o = self.
Proof.
  intros Hb Hty. destruct (BaseGPS_init_inv _ _ Hb) as [rest [_ Hinit]].
  enter_decoder Hinit. rewrite Hty. eexists. split; reflexivity.
Qed.

Lemma VTG_returns_on_known_code_witness :
  exists o, GPSVTG.__init__ "$GPGGA" = ([], inr o) /\
            GPSVTG.base o = {| BaseGPS.data := ["GPGGA"];
                               BaseGPS.receiver := "GP";
                               BaseGPS.type := "GGA" |}.
Proof.
  exact (VTG_returns_on_known_code "$GPGGA" _ eq_refl eq_refl).
Defined.

(** X11. When the frame is a head, a star and a tail without a star, a
    record returned by the GGA, GSA, GSV or RMC decoder has the tail as its
    checksum, and its fields are those of the head with its stars and dollar
    signs deleted. *)
Theorem checksum_is_text_after_last_star (head tail : string) :
  Py.contains "*" tail = false ->
  let frame := head ++ "*" ++ tail in
  let fields := Py.split BaseGPS.SEP (Py.re_sub_class ["*"; "$"]%char head) in
  (forall o, outcome (GPSGGA.__init__ frame) = inr o ->
     GPSGGA.checksum o = tail /\ BaseGPS.data (GPSGGA.base o) = fields) /\
  (forall o, outcome (GPSGSA.__init__ frame) = inr o ->
     GPSGSA.checksum o = tail /\ BaseGPS.data (GPSGSA.base o) = fields) /\
  (forall o, outcome (GPSGSV.__init__ frame) = inr o ->
     GPSGSV.checksum o = tail /\ BaseGPS.data (GPSGSV.base o) = fields) /\
  (forall o, outcome (GPSRMC.__init__ frame) = inr o ->
     GPSRMC.checksum o = tail /\ BaseGPS.data (GPSRMC.base o) = fields).
Proof.
  intros Ht. cbv zeta.
  pose proof (rpartition_last "*" head tail Ht) as Hpart.
  pose proof (split_before_last_star head tail Ht) as Hsplit.
  change ("*" ++ tail) with (String "*" tail) in *.
  revert Hpart Hsplit.
  generalize (Py.split BaseGPS.SEP (Py.re_sub_class ["*"; "$"]%char head)).
  generalize (head ++ String "*" tail).
  intros frame fields Hpart Hsplit.
  split; [|split; [|split]]; intros o;
    unfold GPSGGA.__init__, GPSGSA.__init__, GPSGSV.__init__, GPSRMC.__init__;
    (destruct (BaseGPS.__init__ frame) as [out [e | self]] eqn:Hinit;
     [discriminate|]);
    pose proof (BaseGPS_init_data frame self) as Hdata;
    rewrite Hinit, Hsplit in Hdata; specialize (Hdata eq_refl);
    unfold print, bind at 1; try unfold bind at 1;
    (destruct (negb (Py.list_in (BaseGPS.type self)
                       (Py.keys BaseGPS.FRAME_TYPE)));
     [ match goal with
       | |- context [negb (?a =? ?b)] => destruct (negb (a =? b))
       end; discriminate
     | ]);
    case_getitems; cbn; try discriminate;
    intros H; injection H as <-; cbn; now rewrite Hpart.
Qed.

Lemma checksum_is_text_after_last_star_witness :
  exists o,
    outcome (GPSGSV.__init__ ("$GPGSV,2,1,08,01,40,083,46*7" ++ "*" ++ "75"))
    = inr o /\
    GPSGSV.checksum o = "75" /\
    BaseGPS.data (GPSGSV.base o) =
    ["GPGSV"; "2"; "1"; "08"; "01"; "40"; "083"; "467"].
Proof.
  eexists. split; [reflexivity|].
  apply (proj1 (proj2 (proj2
           (checksum_is_text_after_last_star
              "$GPGSV,2,1,08,01,40,083,46*7" "75" eq_refl)))).
  reflexivity.
Defined.

(** X12. On a frame that starts with the dollar sign the only exception
    the dispatcher raises is the index error of a list too short: never the
    type error, never a format error, never an attribute error from the
    exception classes of the registry. *)
Theorem getInstance_only_IndexError (rest : string) (e : exn) :
  outcome (GPS.getInstance (String "$" rest)) = inl e ->
  e = IndexError "list index out of range".
Proof.
  unfold GPS.getInstance.
  pose proof (BaseGPS_init_dollar rest) as Hinit. cbv zeta in Hinit.
  set (frame := String "$" rest) in *.
  set (self := {| BaseGPS.data := BaseGPS._split frame;
                  BaseGPS.receiver := _; BaseGPS.type := _ |}) in Hinit.
  assert (Hb : outcome (BaseGPS.__init__ frame) = inr self)
    by now rewrite Hinit.
  rewrite Hinit at 1. rewrite bind_ret_l, getInstance_loop_cases.
  destruct (String.eqb_spec (BaseGPS.type self) "") as [E | _].
  { rewrite Hinit, bind_ret_l. discriminate. }
  repeat match goal with
         | |- context [BaseGPS.type self =? ?tag] =>
             destruct (String.eqb_spec (BaseGPS.type self) tag) as [E | _];
             [ destruct (known_code_errors frame self Hb
                           ltac:(rewrite E; reflexivity))
                 as (Hgga & Hgll & Hgsa & Hgsv & Hvtg & Hrmc);
               rewrite outcome_bind_map;
               match goal with
               | |- context [outcome ?m] =>
                   destruct (outcome m) as [e' | o] eqn:He
               end;
               [ intros H; injection H as <-; auto | discriminate ]
             | ]
         end.
  discriminate.
Qed.

Lemma getInstance_only_IndexError_witness :
  outcome (GPS.getInstance "$GPGGA,1") =
  inl (IndexError "list index out of range").
Proof.
  destruct (outcome (GPS.getInstance "$GPGGA,1")) as [e | o] eqn:He;
    [|discriminate He].
  f_equal. exact (getInstance_only_IndexError "GPGGA,1" e He).
Defined.

(** X13. Printing: the base constructor and the GGA, GLL, GSA, GSV and
    VTG decoders print nothing, whatever the frame and whatever they raise;
    the RMC decoder prints the code of the frame, once, whenever the base
    constructor has accepted the frame, also when it then raises, and
    nothing otherwise. *)
Theorem decoders_stdout (frame : string) :
  stdout (BaseGPS.__init__ frame) = [] /\
  stdout (GPSGGA.__init__ frame) = [] /\
  stdout (GPSGLL.__init__ frame) = [] /\
  stdout (GPSGSA.__init__ frame) = [] /\
  stdout (GPSGSV.__init__ frame) = [] /\
  stdout (GPSVTG.__init__ frame) = [] /\
  stdout (GPSRMC.__init__ frame) =
  match outcome (BaseGPS.__init__ frame) with
  | inr self => [BaseGPS.type self]
  | inl _ => []
  end.
Proof.
  destruct frame as [|c rest]; [repeat split; reflexivity|].
  unfold GPSGGA.__init__, GPSGLL.__init__, GPSGSA.__init__, GPSGSV.__init__,
    GPSVTG.__init__, GPSRMC.__init__.
  destruct (Ascii.eqb_spec c "$") as [-> | Hc].
  - rewrite BaseGPS_init_dollar. cbv zeta. rewrite !bind_ret_l.
    unfold print, bind at 6.
    repeat split;
      repeat match goal with
             | |- context [if ?b then _ else _] => destruct b
             end;
      case_getitems; reflexivity.
  - rewrite (BaseGPS_init_not_dollar c rest Hc), !bind_raise_l.
    repeat split.
Qed.

(** ** Instances of the lemmas on the guard and on the first character *)

Lemma unknown_code_raises_TypeError_witness :
  outcome (GPSVTG.__init__ "$GPZDA,201530.00,04,07,2002") =
  inl (GPSTypeError "not GGA type") /\
  outcome (GPSRMC.__init__ "$GPZDA,201530.00,04,07,2002") =
  inl (GPSTypeError "not RMC type").
Proof.
  destruct (unknown_code_raises_TypeError "$GPZDA,201530.00,04,07,2002"
              {| BaseGPS.data := ["GPZDA"; "201530.00"; "04"; "07"; "2002"];
                 BaseGPS.receiver := "GP";
                 BaseGPS.type := "ZDA" |} eq_refl eq_refl)
    as (_ & _ & _ & Hvtg & Hrmc).
  split; [exact Hvtg | exact Hrmc].
Defined.

Lemma guard_never_FormatError_witness :
  outcome (GPSGSA.__init__ "$GPZDA,201530.00,04,07,2002") <>
  inl (GPSFormatError "ZDA type is not support").
Proof.
  exact (proj1 (proj2 (proj2
           (guard_never_FormatError "$GPZDA,201530.00,04,07,2002"
              {| BaseGPS.data := ["GPZDA"; "201530.00"; "04"; "07"; "2002"];
                 BaseGPS.receiver := "GP";
                 BaseGPS.type := "ZDA" |}
              "ZDA type is not support" eq_refl)))).
Defined.

Lemma not_dollar_FormatError_witness :
  outcome (GPS.getInstance "GPGGA,123519") =
  inl (GPSFormatError "Lenght error : 12").
Proof.
  refine (proj2 (proj2 (proj2 (proj2 (proj2 (proj2 (proj2
            (not_dollar_FormatError "G" "PGGA,123519" _)))))))).
  discriminate.
Defined.
